(** * Thermostat controller (thermostat.c): model and verified properties

    The controller is a four-field C struct mutated in place through a
    pointer by five [void] functions.  Each function is embedded as a total
    function [Thermostat -> Thermostat]; a field assignment
    [thermostat->f = v] is a functional record update.  The two temperature
    fields are C [int]s: they are carried as [Z] and the only arithmetic of
    the program ([currentTemp++], [currentTemp--]) is written with the 32-bit
    two's-complement wrap, which the guards of the program are then shown
    never to trigger. *)

From Stdlib Require Import ZArith Lia Bool List.
Import ListNotations.
Open Scope Z_scope.

(** ** C [int] arithmetic *)

Module CInt.

Definition int_min : Z := -2147483648.
Definition int_max : Z := 2147483647.

(** The values an [int] object can hold. *)
Definition in_int (z : Z) : Prop := int_min <= z <= int_max.

(** Reduction of a mathematical result to the 32-bit signed range. *)
Definition wrap (z : Z) : Z := (z + 2147483648) mod 4294967296 - 2147483648.

(** [x++] and [x--] on an [int] lvalue. *)
Definition incr (z : Z) : Z := wrap (z + 1).
Definition decr (z : Z) : Z := wrap (z - 1).

End CInt.

(** ** Data model *)

(** [typedef enum { STATE_IDLE, STATE_HEATING, STATE_COOLING } ThermostatState] *)
Inductive ThermostatState : Type :=
| STATE_IDLE
| STATE_HEATING
| STATE_COOLING.

(** [typedef enum { FAN_LOW, FAN_MEDIUM, FAN_HIGH } FanSpeed] *)
Inductive FanSpeed : Type :=
| FAN_LOW
| FAN_MEDIUM
| FAN_HIGH.

(** [typedef struct { int currentTemp; int targetTemp;
                     ThermostatState state; FanSpeed fanSpeed; } Thermostat] *)
Record Thermostat : Type := mkThermostat {
  currentTemp : Z;
  targetTemp : Z;
  state : ThermostatState;
  fanSpeed : FanSpeed
}.

(** The [==] test on [ThermostatState] values. *)
Definition state_eqb (a b : ThermostatState) : bool :=
  match a, b with
  | STATE_IDLE, STATE_IDLE => true
  | STATE_HEATING, STATE_HEATING => true
  | STATE_COOLING, STATE_COOLING => true
  | _, _ => false
  end.

(** Field assignments [thermostat->f = v]. *)
Definition set_currentTemp (v : Z) (t : Thermostat) : Thermostat :=
  mkThermostat v (targetTemp t) (state t) (fanSpeed t).
Definition set_targetTemp (v : Z) (t : Thermostat) : Thermostat :=
  mkThermostat (currentTemp t) v (state t) (fanSpeed t).
Definition set_state (v : ThermostatState) (t : Thermostat) : Thermostat :=
  mkThermostat (currentTemp t) (targetTemp t) v (fanSpeed t).
Definition set_fanSpeed (v : FanSpeed) (t : Thermostat) : Thermostat :=
  mkThermostat (currentTemp t) (targetTemp t) (state t) v.

(** Both temperature fields hold [int] values: the representation invariant
    of the C struct. *)
Definition wf (t : Thermostat) : Prop :=
  CInt.in_int (currentTemp t) /\ CInt.in_int (targetTemp t).

(** ** Operations *)

(** [void initThermostat(Thermostat *thermostat)]: overwrites the four
    fields, whatever the struct held before. *)
Definition initThermostat (thermostat : Thermostat) : Thermostat :=
  let thermostat := set_currentTemp 20 thermostat in
  let thermostat := set_targetTemp 22 thermostat in
  let thermostat := set_state STATE_IDLE thermostat in
  set_fanSpeed FAN_LOW thermostat.

(** The struct after [initThermostat]; its prior content is irrelevant. *)
Definition initial : Thermostat :=
  initThermostat (mkThermostat 0 0 STATE_IDLE FAN_LOW).

(** [void setTargetTemp(Thermostat *thermostat, int newTarget)] *)
Definition setTargetTemp (thermostat : Thermostat) (newTarget : Z) : Thermostat :=
  if (newTarget >=? 16) && (newTarget <=? 30)
     && negb (newTarget =? targetTemp thermostat) then
    let thermostat := set_targetTemp newTarget thermostat in
    if newTarget >? currentTemp thermostat then
      let thermostat := set_state STATE_HEATING thermostat in
      set_fanSpeed FAN_HIGH thermostat
    else if newTarget <? currentTemp thermostat then
      let thermostat := set_state STATE_COOLING thermostat in
      set_fanSpeed FAN_HIGH thermostat
    else
      let thermostat := set_state STATE_IDLE thermostat in
      set_fanSpeed FAN_LOW thermostat
  else thermostat.

(** [void increaseTemp(Thermostat *thermostat)] *)
Definition increaseTemp (thermostat : Thermostat) : Thermostat :=
  if state_eqb (state thermostat) STATE_HEATING
     && (currentTemp thermostat <? targetTemp thermostat) then
    let thermostat :=
      set_currentTemp (CInt.incr (currentTemp thermostat)) thermostat in
    if currentTemp thermostat =? targetTemp thermostat then
      let thermostat := set_state STATE_IDLE thermostat in
      set_fanSpeed FAN_LOW thermostat
    else
      set_fanSpeed FAN_MEDIUM thermostat
  else thermostat.

(** [void decreaseTemp(Thermostat *thermostat)] *)
Definition decreaseTemp (thermostat : Thermostat) : Thermostat :=
  if state_eqb (state thermostat) STATE_COOLING
     && (currentTemp thermostat >? targetTemp thermostat) then
    let thermostat :=
      set_currentTemp (CInt.decr (currentTemp thermostat)) thermostat in
    if currentTemp thermostat =? targetTemp thermostat then
      let thermostat := set_state STATE_IDLE thermostat in
      set_fanSpeed FAN_LOW thermostat
    else
      set_fanSpeed FAN_MEDIUM thermostat
  else thermostat.

(** [void noChange(Thermostat *thermostat)] *)
Definition noChange (thermostat : Thermostat) : Thermostat :=
  if currentTemp thermostat =? targetTemp thermostat then
    let thermostat := set_state STATE_IDLE thermostat in
    set_fanSpeed FAN_LOW thermostat
  else thermostat.

(** ** Call sequences *)

(** One call of a mutating operation by the driving loop. *)
Inductive Call : Type :=
| CallSetTargetTemp (newTarget : Z)
| CallIncreaseTemp
| CallDecreaseTemp
| CallNoChange.

Definition call (c : Call) (t : Thermostat) : Thermostat :=
  match c with
  | CallSetTargetTemp newTarget => setTargetTemp t newTarget
  | CallIncreaseTemp => increaseTemp t
  | CallDecreaseTemp => decreaseTemp t
  | CallNoChange => noChange t
  end.

(** The calls of [cs] made in order, first element first. *)
Fixpoint run (cs : list Call) (t : Thermostat) : Thermostat :=
  match cs with
  | [] => t
  | c :: cs' => run cs' (call c t)
  end.

(** [n] successive calls of one operation. *)
Fixpoint repeat_call (n : nat) (f : Thermostat -> Thermostat)
  (t : Thermostat) : Thermostat :=
  match n with
  | O => t
  | S n' => repeat_call n' f (f t)
  end.

(** State IDLE, fan speed LOW and the target temperature reached. *)
Definition converged (t : Thermostat) : Prop :=
  state t = STATE_IDLE /\ fanSpeed t = FAN_LOW /\ currentTemp t = targetTemp t.

(** The states the driving loop can reach from the initialised struct. *)
Inductive reachable : Thermostat -> Prop :=
| reachable_init : reachable initial
| reachable_call c t : reachable t -> reachable (call c t).

(** The invariant carried along every call sequence. *)
Record Inv (t : Thermostat) : Prop := mkInv {
  inv_wf : wf t;
  inv_idle : state t = STATE_IDLE -> fanSpeed t = FAN_LOW;
  inv_heating : state t = STATE_HEATING -> currentTemp t <= targetTemp t;
  inv_cooling : state t = STATE_COOLING -> currentTemp t >= targetTemp t
}.

(** How far the current temperature is from the target. *)
Definition distance (t : Thermostat) : Z :=
  Z.abs (targetTemp t - currentTemp t).

(** Calls of [setTargetTemp], the only operation that takes an argument. *)
Definition is_setTargetTemp (c : Call) : bool :=
  match c with
  | CallSetTargetTemp _ => true
  | _ => false
  end.

(** Calls that pass the range test [newTarget >= 16 && newTarget <= 30] of
    [setTargetTemp]; the three other operations have no argument to test. *)
Definition passes_range_test (c : Call) : bool :=
  match c with
  | CallSetTargetTemp newTarget => (newTarget >=? 16) && (newTarget <=? 30)
  | _ => true
  end.

(** The sharper invariant of the call sequences: both temperatures stay in
    the accepted target range, a heating or cooling struct is strictly on its
    side of the target, and equal temperatures mean IDLE/LOW. *)
Record StrictInv (t : Thermostat) : Prop := mkStrictInv {
  sinv_target : 16 <= targetTemp t <= 30;
  sinv_current : 16 <= currentTemp t <= 30;
  sinv_heating : state t = STATE_HEATING -> currentTemp t < targetTemp t;
  sinv_cooling : state t = STATE_COOLING -> currentTemp t > targetTemp t;
  sinv_equal : currentTemp t = targetTemp t ->
               state t = STATE_IDLE /\ fanSpeed t = FAN_LOW
}.

(** ** Proof support *)

(** The guards of the program keep [x++] and [x--] inside the [int] range. *)
Module CIntFacts.
Import CInt.

Lemma wrap_in_int z : in_int (wrap z).
Proof.
  unfold in_int, wrap, int_min, int_max.
  pose proof (Z.mod_pos_bound (z + 2147483648) 4294967296 eq_refl). lia.
Qed.

Lemma wrap_id z : in_int z -> wrap z = z.
Proof.
  unfold in_int, wrap, int_min, int_max. intros Hz.
  rewrite Z.mod_small by lia. lia.
Qed.

Lemma incr_below z hi : in_int z -> in_int hi -> z < hi -> incr z = z + 1.
Proof.
  unfold incr. intros Hz Hhi Hlt. apply wrap_id.
  unfold in_int, int_min, int_max in *. lia.
Qed.

Lemma decr_above z lo : in_int z -> in_int lo -> lo < z -> decr z = z - 1.
Proof.
  unfold decr. intros Hz Hlo Hlt. apply wrap_id.
  unfold in_int, int_min, int_max in *. lia.
Qed.

End CIntFacts.

Lemma state_eqb_eq a b : state_eqb a b = true <-> a = b.
Proof. destruct a, b; simpl; split; intro H; try reflexivity; discriminate H. Qed.

Lemma state_eqb_neq a b : state_eqb a b = false <-> a <> b.
Proof.
  destruct a, b; simpl; split; intro H;
    try reflexivity; try discriminate H; try (intro E; discriminate E);
    exfalso; apply H; reflexivity.
Qed.

(** Turns the boolean tests of the C conditions into propositions. *)
Ltac cond_prop :=
  repeat match goal with
  | H : _ && _ = true |- _ => apply andb_true_iff in H; destruct H
  | H : negb _ = true |- _ => apply negb_true_iff in H
  | H : negb _ = false |- _ => apply negb_false_iff in H
  | H : (_ >? _) = _ |- _ => rewrite Z.gtb_ltb in H
  | H : (_ >=? _) = _ |- _ => rewrite Z.geb_leb in H
  | H : (_ <? _) = true |- _ => apply Z.ltb_lt in H
  | H : (_ <? _) = false |- _ => apply Z.ltb_ge in H
  | H : (_ <=? _) = true |- _ => apply Z.leb_le in H
  | H : (_ <=? _) = false |- _ => apply Z.leb_gt in H
  | H : (_ =? _) = true |- _ => apply Z.eqb_eq in H
  | H : (_ =? _) = false |- _ => apply Z.eqb_neq in H
  | H : state_eqb _ _ = true |- _ => apply state_eqb_eq in H
  | H : state_eqb _ _ = false |- _ => apply state_eqb_neq in H
  end.

(** Splits on the outermost undecided C condition of the goal. *)
Ltac branch :=
  match goal with
  | |- context [if ?b then _ else _] =>
      let E := fresh "E" in destruct b eqn:E
  end.

(** The guard of [setTargetTemp] as a proposition. *)
Lemma setTargetTemp_guard (t : Thermostat) (newTarget : Z) :
  (newTarget >=? 16) && (newTarget <=? 30)
    && negb (newTarget =? targetTemp t) = true
  <-> 16 <= newTarget <= 30 /\ newTarget <> targetTemp t.
Proof.
  rewrite !andb_true_iff, negb_true_iff, Z.geb_leb, !Z.leb_le, Z.eqb_neq.
  tauto.
Qed.

(** The guard of [increaseTemp] as a proposition. *)
Lemma increaseTemp_guard (t : Thermostat) :
  state_eqb (state t) STATE_HEATING && (currentTemp t <? targetTemp t) = true
  <-> state t = STATE_HEATING /\ currentTemp t < targetTemp t.
Proof. rewrite andb_true_iff, state_eqb_eq, Z.ltb_lt. tauto. Qed.

(** The guard of [decreaseTemp] as a proposition. *)
Lemma decreaseTemp_guard (t : Thermostat) :
  state_eqb (state t) STATE_COOLING && (currentTemp t >? targetTemp t) = true
  <-> state t = STATE_COOLING /\ currentTemp t > targetTemp t.
Proof. rewrite andb_true_iff, state_eqb_eq, Z.gtb_ltb, Z.ltb_lt. intuition lia. Qed.

Lemma not_true_false (b : bool) : ~ (b = true) -> b = false.
Proof. destruct b; [intro H; exfalso; apply H; reflexivity | reflexivity]. Qed.

(** [initThermostat] forgets the struct it is given. *)
Lemma initThermostat_const (t : Thermostat) :
  initThermostat t = mkThermostat 20 22 STATE_IDLE FAN_LOW.
Proof. reflexivity. Qed.

Lemma wf_initial : wf initial.
Proof. unfold wf, CInt.in_int, CInt.int_min, CInt.int_max; simpl; lia. Qed.

(** ** setTargetTemp *)

(** What an accepted call of [setTargetTemp] stores. *)
Lemma setTargetTemp_accept (s : Thermostat) (t : Z) :
  16 <= t <= 30 -> t <> targetTemp s ->
  setTargetTemp s t =
    if t >? currentTemp s then mkThermostat (currentTemp s) t STATE_HEATING FAN_HIGH
    else if t <? currentTemp s then mkThermostat (currentTemp s) t STATE_COOLING FAN_HIGH
    else mkThermostat (currentTemp s) t STATE_IDLE FAN_LOW.
Proof.
  intros Hr Hne. unfold setTargetTemp.
  rewrite (proj2 (setTargetTemp_guard s t) (conj Hr Hne)).
  simpl. repeat branch; reflexivity.
Qed.

(** A rejected call of [setTargetTemp] returns the struct as it was. *)
Lemma setTargetTemp_reject (s : Thermostat) (t : Z) :
  ~ (16 <= t <= 30 /\ t <> targetTemp s) -> setTargetTemp s t = s.
Proof.
  intros Hn. unfold setTargetTemp.
  rewrite (not_true_false _ (fun H => Hn (proj1 (setTargetTemp_guard s t) H))).
  reflexivity.
Qed.

(** C1. A call [setTargetTemp(s, t)] with [16 <= t <= 30] and
    [t != s.targetTemp] stores [t] in [targetTemp], keeps [currentTemp], and
    sets state and fan speed to HEATING/HIGH when [t > currentTemp], to
    COOLING/HIGH when [t < currentTemp] and to IDLE/LOW when they are equal. *)
Theorem setTargetTemp_valid (s : Thermostat) (t : Z) :
  16 <= t <= 30 -> t <> targetTemp s ->
  targetTemp (setTargetTemp s t) = t /\
  currentTemp (setTargetTemp s t) = currentTemp s /\
  (t > currentTemp s ->
     state (setTargetTemp s t) = STATE_HEATING /\
     fanSpeed (setTargetTemp s t) = FAN_HIGH) /\
  (t < currentTemp s ->
     state (setTargetTemp s t) = STATE_COOLING /\
     fanSpeed (setTargetTemp s t) = FAN_HIGH) /\
  (t = currentTemp s ->
     state (setTargetTemp s t) = STATE_IDLE /\
     fanSpeed (setTargetTemp s t) = FAN_LOW).
Proof.
  intros Hr Hne. rewrite (setTargetTemp_accept s t Hr Hne).
  destruct (t >? currentTemp s) eqn:Egt; [| destruct (t <? currentTemp s) eqn:Elt];
    cond_prop; simpl; repeat split; intros; lia.
Qed.

Lemma setTargetTemp_valid_witness :
  16 <= 25 <= 30 /\ 25 <> targetTemp initial /\
  targetTemp (setTargetTemp initial 25) = 25 /\
  currentTemp (setTargetTemp initial 25) = currentTemp initial /\
  (25 > currentTemp initial ->
     state (setTargetTemp initial 25) = STATE_HEATING /\
     fanSpeed (setTargetTemp initial 25) = FAN_HIGH) /\
  (25 < currentTemp initial ->
     state (setTargetTemp initial 25) = STATE_COOLING /\
     fanSpeed (setTargetTemp initial 25) = FAN_HIGH) /\
  (25 = currentTemp initial ->
     state (setTargetTemp initial 25) = STATE_IDLE /\
     fanSpeed (setTargetTemp initial 25) = FAN_LOW).
Proof.
  assert (Hr : 16 <= 25 <= 30) by lia.
  assert (Hne : 25 <> targetTemp initial) by (simpl; lia).
  split; [exact Hr | split; [exact Hne |]].
  exact (setTargetTemp_valid initial 25 Hr Hne).
Defined.

(** C4. A call [setTargetTemp(s, t)] with [t < 16], [t > 30] or
    [t == s.targetTemp] returns [s] with all four fields as they were; the
    function is [void] and total, so there is no error to signal. *)
Theorem setTargetTemp_invalid (s : Thermostat) (t : Z) :
  t < 16 \/ t > 30 \/ t = targetTemp s -> setTargetTemp s t = s.
Proof.
  intros H. apply setTargetTemp_reject. intros [Hr Hne].
  destruct H as [H | [H | H]]; [lia | lia | exact (Hne H)].
Qed.

Lemma setTargetTemp_invalid_witness :
  (15 < 16 \/ 15 > 30 \/ 15 = targetTemp initial) /\
  setTargetTemp initial 15 = initial.
Proof.
  assert (H : 15 < 16 \/ 15 > 30 \/ 15 = targetTemp initial) by (left; lia).
  split; [exact H | exact (setTargetTemp_invalid initial 15 H)].
Defined.

(** ** increaseTemp and decreaseTemp *)

(** One heating step taken: the stored struct. *)
Lemma increaseTemp_step (s : Thermostat) :
  wf s -> state s = STATE_HEATING -> currentTemp s < targetTemp s ->
  increaseTemp s =
    if currentTemp s + 1 =? targetTemp s
    then mkThermostat (currentTemp s + 1) (targetTemp s) STATE_IDLE FAN_LOW
    else mkThermostat (currentTemp s + 1) (targetTemp s) STATE_HEATING FAN_MEDIUM.
Proof.
  intros [Hc Ht] Hs Hlt. unfold increaseTemp.
  rewrite (proj2 (increaseTemp_guard s) (conj Hs Hlt)).
  cbn [set_currentTemp set_state set_fanSpeed currentTemp targetTemp state fanSpeed].
  rewrite (CIntFacts.incr_below _ _ Hc Ht Hlt).
  branch; unfold set_fanSpeed, set_state, set_currentTemp; simpl;
    rewrite ?Hs; reflexivity.
Qed.

(** No heating step taken: the struct is returned as it was. *)
Lemma increaseTemp_skip (s : Thermostat) :
  ~ (state s = STATE_HEATING /\ currentTemp s < targetTemp s) ->
  increaseTemp s = s.
Proof.
  intros Hn. unfold increaseTemp.
  rewrite (not_true_false _ (fun H => Hn (proj1 (increaseTemp_guard s) H))).
  reflexivity.
Qed.

(** One cooling step taken: the stored struct. *)
Lemma decreaseTemp_step (s : Thermostat) :
  wf s -> state s = STATE_COOLING -> currentTemp s > targetTemp s ->
  decreaseTemp s =
    if currentTemp s - 1 =? targetTemp s
    then mkThermostat (currentTemp s - 1) (targetTemp s) STATE_IDLE FAN_LOW
    else mkThermostat (currentTemp s - 1) (targetTemp s) STATE_COOLING FAN_MEDIUM.
Proof.
  intros [Hc Ht] Hs Hgt. unfold decreaseTemp.
  rewrite (proj2 (decreaseTemp_guard s) (conj Hs Hgt)).
  cbn [set_currentTemp set_state set_fanSpeed currentTemp targetTemp state fanSpeed].
  rewrite (CIntFacts.decr_above _ _ Hc Ht (Z.gt_lt _ _ Hgt)).
  branch; unfold set_fanSpeed, set_state, set_currentTemp; simpl;
    rewrite ?Hs; reflexivity.
Qed.

(** No cooling step taken: the struct is returned as it was. *)
Lemma decreaseTemp_skip (s : Thermostat) :
  ~ (state s = STATE_COOLING /\ currentTemp s > targetTemp s) ->
  decreaseTemp s = s.
Proof.
  intros Hn. unfold decreaseTemp.
  rewrite (not_true_false _ (fun H => Hn (proj1 (decreaseTemp_guard s) H))).
  reflexivity.
Qed.

(** C2. On a struct in state HEATING with [currentTemp < targetTemp],
    [increaseTemp] adds exactly 1 to [currentTemp] and keeps [targetTemp];
    when the incremented value equals [targetTemp] the result is IDLE/LOW,
    otherwise it is HEATING/MEDIUM.  On every other struct [increaseTemp]
    changes nothing.  ([wf] says that the two temperature fields hold C [int]
    values.) *)
Theorem increaseTemp_spec (s : Thermostat) :
  wf s ->
  (state s = STATE_HEATING /\ currentTemp s < targetTemp s ->
     currentTemp (increaseTemp s) = currentTemp s + 1 /\
     targetTemp (increaseTemp s) = targetTemp s /\
     (currentTemp s + 1 = targetTemp s ->
        state (increaseTemp s) = STATE_IDLE /\
        fanSpeed (increaseTemp s) = FAN_LOW) /\
     (currentTemp s + 1 <> targetTemp s ->
        state (increaseTemp s) = STATE_HEATING /\
        fanSpeed (increaseTemp s) = FAN_MEDIUM)) /\
  (~ (state s = STATE_HEATING /\ currentTemp s < targetTemp s) ->
     increaseTemp s = s).
Proof.
  intros Hwf. split; [| apply increaseTemp_skip].
  intros [Hs Hlt]. rewrite (increaseTemp_step s Hwf Hs Hlt).
  destruct (currentTemp s + 1 =? targetTemp s) eqn:E; cond_prop;
    cbn [currentTemp targetTemp state fanSpeed];
    repeat split; intros; try reflexivity; contradiction.
Qed.

(** C5. On a struct in state COOLING with [currentTemp > targetTemp],
    [decreaseTemp] subtracts exactly 1 from [currentTemp] and keeps
    [targetTemp]; when the decremented value equals [targetTemp] the result is
    IDLE/LOW, otherwise it is COOLING/MEDIUM.  On every other struct
    [decreaseTemp] changes nothing. *)
Theorem decreaseTemp_spec (s : Thermostat) :
  wf s ->
  (state s = STATE_COOLING /\ currentTemp s > targetTemp s ->
     currentTemp (decreaseTemp s) = currentTemp s - 1 /\
     targetTemp (decreaseTemp s) = targetTemp s /\
     (currentTemp s - 1 = targetTemp s ->
        state (decreaseTemp s) = STATE_IDLE /\
        fanSpeed (decreaseTemp s) = FAN_LOW) /\
     (currentTemp s - 1 <> targetTemp s ->
        state (decreaseTemp s) = STATE_COOLING /\
        fanSpeed (decreaseTemp s) = FAN_MEDIUM)) /\
  (~ (state s = STATE_COOLING /\ currentTemp s > targetTemp s) ->
     decreaseTemp s = s).
Proof.
  intros Hwf. split; [| apply decreaseTemp_skip].
  intros [Hs Hgt]. rewrite (decreaseTemp_step s Hwf Hs Hgt).
  destruct (currentTemp s - 1 =? targetTemp s) eqn:E; cond_prop;
    cbn [currentTemp targetTemp state fanSpeed];
    repeat split; intros; try reflexivity; contradiction.
Qed.

(** C9. [increaseTemp] changes no field of a struct whose state is not
    HEATING, and [decreaseTemp] changes no field of a struct whose state is
    not COOLING. *)
Theorem wrong_state_noop (s : Thermostat) :
  (state s <> STATE_HEATING -> increaseTemp s = s) /\
  (state s <> STATE_COOLING -> decreaseTemp s = s).
Proof.
  split; intros Hs.
  - apply increaseTemp_skip. intros [H _]. exact (Hs H).
  - apply decreaseTemp_skip. intros [H _]. exact (Hs H).
Qed.

(** ** noChange *)

(** C6. When [currentTemp == targetTemp], [noChange] returns a struct in
    state IDLE with fan speed LOW, whatever state and fan speed it had, and
    with both temperatures as they were; when the temperatures differ it
    returns the struct unchanged. *)
Theorem noChange_spec (s : Thermostat) :
  (currentTemp s = targetTemp s ->
     noChange s = mkThermostat (currentTemp s) (targetTemp s) STATE_IDLE FAN_LOW) /\
  (currentTemp s <> targetTemp s -> noChange s = s).
Proof.
  unfold noChange. split; intros H.
  - rewrite (proj2 (Z.eqb_eq _ _) H). reflexivity.
  - rewrite (proj2 (Z.eqb_neq _ _) H). reflexivity.
Qed.

(** ** Frame: targetTemp *)

Lemma increaseTemp_targetTemp (s : Thermostat) :
  targetTemp (increaseTemp s) = targetTemp s.
Proof. unfold increaseTemp. repeat branch; reflexivity. Qed.

Lemma decreaseTemp_targetTemp (s : Thermostat) :
  targetTemp (decreaseTemp s) = targetTemp s.
Proof. unfold decreaseTemp. repeat branch; reflexivity. Qed.

Lemma noChange_targetTemp (s : Thermostat) :
  targetTemp (noChange s) = targetTemp s.
Proof. unfold noChange. branch; reflexivity. Qed.

(** C10. On every struct, whether or not a guard holds, [increaseTemp],
    [decreaseTemp] and [noChange] leave [targetTemp] as it was; of the five
    operations only [setTargetTemp] and [initThermostat] can store a new
    [targetTemp], and each of them does on some input. *)
Theorem targetTemp_frame :
  (forall s, targetTemp (increaseTemp s) = targetTemp s) /\
  (forall s, targetTemp (decreaseTemp s) = targetTemp s) /\
  (forall s, targetTemp (noChange s) = targetTemp s) /\
  (exists s t, targetTemp (setTargetTemp s t) <> targetTemp s) /\
  (exists s, targetTemp (initThermostat s) <> targetTemp s).
Proof.
  split; [exact increaseTemp_targetTemp |].
  split; [exact decreaseTemp_targetTemp |].
  split; [exact noChange_targetTemp |].
  split.
  - exists initial, 25. simpl. discriminate.
  - exists (mkThermostat 0 0 STATE_IDLE FAN_LOW). simpl. discriminate.
Qed.

(** ** Invariant of the call sequences *)

Lemma Inv_initial : Inv initial.
Proof.
  constructor; [exact wf_initial | reflexivity | |]; simpl; intros H; discriminate H.
Qed.

Lemma in_int_target (t : Z) : 16 <= t <= 30 -> CInt.in_int t.
Proof. unfold CInt.in_int, CInt.int_min, CInt.int_max. lia. Qed.

Lemma Inv_setTargetTemp (s : Thermostat) (t : Z) :
  Inv s -> Inv (setTargetTemp s t).
Proof.
  intros HI.
  destruct ((t >=? 16) && (t <=? 30) && negb (t =? targetTemp s)) eqn:G.
  - apply setTargetTemp_guard in G. destruct G as [Hr Hne].
    rewrite (setTargetTemp_accept s t Hr Hne).
    destruct HI as [[Hc _] _ _ _]. pose proof (in_int_target t Hr) as Ht.
    repeat branch; cond_prop;
      (constructor; simpl;
       [ split; assumption
       | intros H; try reflexivity; discriminate H
       | intros H; try lia; discriminate H
       | intros H; try lia; discriminate H ]).
  - rewrite setTargetTemp_reject; [exact HI |].
    intros H. apply setTargetTemp_guard in H. rewrite H in G. discriminate G.
Qed.

Lemma Inv_increaseTemp (s : Thermostat) : Inv s -> Inv (increaseTemp s).
Proof.
  intros HI.
  destruct (state_eqb (state s) STATE_HEATING
            && (currentTemp s <? targetTemp s)) eqn:G.
  - apply increaseTemp_guard in G. destruct G as [Hs Hlt].
    rewrite (increaseTemp_step s (inv_wf s HI) Hs Hlt).
    destruct HI as [[Hc Ht] _ _ _].
    assert (Hc' : CInt.in_int (currentTemp s + 1))
      by (unfold CInt.in_int, CInt.int_min, CInt.int_max in *; lia).
    branch; cond_prop;
      (constructor; simpl;
       [ split; assumption
       | intros H; try reflexivity; discriminate H
       | intros H; try lia; discriminate H
       | intros H; try lia; discriminate H ]).
  - rewrite increaseTemp_skip; [exact HI |].
    intros H. apply increaseTemp_guard in H. rewrite H in G. discriminate G.
Qed.

Lemma Inv_decreaseTemp (s : Thermostat) : Inv s -> Inv (decreaseTemp s).
Proof.
  intros HI.
  destruct (state_eqb (state s) STATE_COOLING
            && (currentTemp s >? targetTemp s)) eqn:G.
  - apply decreaseTemp_guard in G. destruct G as [Hs Hgt].
    rewrite (decreaseTemp_step s (inv_wf s HI) Hs Hgt).
    destruct HI as [[Hc Ht] _ _ _].
    assert (Hc' : CInt.in_int (currentTemp s - 1))
      by (unfold CInt.in_int, CInt.int_min, CInt.int_max in *; lia).
    branch; cond_prop;
      (constructor; simpl;
       [ split; assumption
       | intros H; try reflexivity; discriminate H
       | intros H; try lia; discriminate H
       | intros H; try lia; discriminate H ]).
  - rewrite decreaseTemp_skip; [exact HI |].
    intros H. apply decreaseTemp_guard in H. rewrite H in G. discriminate G.
Qed.

Lemma Inv_noChange (s : Thermostat) : Inv s -> Inv (noChange s).
Proof.
  intros HI. unfold noChange. branch; [| exact HI].
  destruct HI as [Hwf _ _ _].
  constructor; simpl; [exact Hwf | reflexivity | |]; intros H; discriminate H.
Qed.

Lemma Inv_call (c : Call) (s : Thermostat) : Inv s -> Inv (call c s).
Proof.
  destruct c; simpl;
    [apply Inv_setTargetTemp | apply Inv_increaseTemp
    | apply Inv_decreaseTemp | apply Inv_noChange].
Qed.

Lemma Inv_run (cs : list Call) : forall s, Inv s -> Inv (run cs s).
Proof.
  induction cs as [| c cs IH]; intros s HI; simpl.
  - exact HI.
  - apply IH, Inv_call, HI.
Qed.

Lemma run_app (cs1 cs2 : list Call) (s : Thermostat) :
  run (cs1 ++ cs2) s = run cs2 (run cs1 s).
Proof. revert s. induction cs1 as [| c cs1 IH]; intros s; simpl; [reflexivity | apply IH]. Qed.

(** [reachable] is exactly what [run] produces from [initial]. *)
Lemma reachable_run (t : Thermostat) :
  reachable t <-> exists cs, t = run cs initial.
Proof.
  split.
  - induction 1 as [| c t _ [cs ->]].
    + exists []. reflexivity.
    + exists (cs ++ [c]). rewrite run_app. reflexivity.
  - intros [cs ->]. induction cs as [| c cs IH] using rev_ind.
    + apply reachable_init.
    + rewrite run_app. simpl. apply reachable_call, IH.
Qed.

Lemma reachable_Inv (t : Thermostat) : reachable t -> Inv t.
Proof. induction 1; [exact Inv_initial | apply Inv_call; assumption]. Qed.

(** C7. In every state reached from the initialised struct by a finite
    sequence of [setTargetTemp], [increaseTemp], [decreaseTemp] and [noChange]
    calls, state IDLE implies fan speed LOW. *)
Theorem idle_implies_low (cs : list Call) :
  state (run cs initial) = STATE_IDLE -> fanSpeed (run cs initial) = FAN_LOW.
Proof. exact (inv_idle _ (Inv_run cs initial Inv_initial)). Qed.

Lemma idle_implies_low_witness :
  state (run [CallSetTargetTemp 23; CallIncreaseTemp; CallIncreaseTemp;
              CallIncreaseTemp] initial) = STATE_IDLE /\
  fanSpeed (run [CallSetTargetTemp 23; CallIncreaseTemp; CallIncreaseTemp;
                 CallIncreaseTemp] initial) = FAN_LOW.
Proof.
  assert (H : state (run [CallSetTargetTemp 23; CallIncreaseTemp;
                          CallIncreaseTemp; CallIncreaseTemp] initial)
              = STATE_IDLE) by reflexivity.
  split; [exact H | exact (idle_implies_low _ H)].
Defined.

(** C8. In every state reached from the initialised struct by a finite
    sequence of the four operations, state HEATING implies
    [currentTemp <= targetTemp] and state COOLING implies
    [currentTemp >= targetTemp]. *)
Theorem state_orders_temperatures (cs : list Call) :
  (state (run cs initial) = STATE_HEATING ->
     currentTemp (run cs initial) <= targetTemp (run cs initial)) /\
  (state (run cs initial) = STATE_COOLING ->
     currentTemp (run cs initial) >= targetTemp (run cs initial)).
Proof.
  pose proof (Inv_run cs initial Inv_initial) as HI.
  split; [exact (inv_heating _ HI) | exact (inv_cooling _ HI)].
Qed.

(** ** Convergence of heating *)

(** A heating struct that is [S n] degrees below its target reaches it after
    exactly [S n] calls of [increaseTemp]. *)
Lemma heating_converges (n : nat) : forall s,
  wf s -> state s = STATE_HEATING ->
  targetTemp s - currentTemp s = Z.of_nat (S n) ->
  repeat_call (S n) increaseTemp s =
    mkThermostat (targetTemp s) (targetTemp s) STATE_IDLE FAN_LOW.
Proof.
  induction n as [| n IH]; intros s Hwf Hs Hd.
  - cbn [repeat_call]. rewrite (increaseTemp_step s Hwf Hs) by lia.
    replace (currentTemp s + 1) with (targetTemp s) by lia.
    rewrite Z.eqb_refl. reflexivity.
  - change (repeat_call (S (S n)) increaseTemp s)
      with (repeat_call (S n) increaseTemp (increaseTemp s)).
    rewrite (increaseTemp_step s Hwf Hs) by lia.
    rewrite (proj2 (Z.eqb_neq (currentTemp s + 1) (targetTemp s))) by lia.
    rewrite IH; [reflexivity | | reflexivity | simpl; lia].
    destruct Hwf as [Hc Ht]. split; simpl; [| exact Ht].
    unfold CInt.in_int, CInt.int_min, CInt.int_max in *. lia.
Qed.

(** While fewer calls than degrees have been made, the struct is still
    heating with the fan at MEDIUM. *)
Lemma heating_in_progress (n : nat) : forall s,
  wf s -> state s = STATE_HEATING ->
  Z.of_nat (S n) < targetTemp s - currentTemp s ->
  repeat_call (S n) increaseTemp s =
    mkThermostat (currentTemp s + Z.of_nat (S n)) (targetTemp s)
      STATE_HEATING FAN_MEDIUM.
Proof.
  induction n as [| n IH]; intros s Hwf Hs Hd.
  - cbn [repeat_call]. rewrite (increaseTemp_step s Hwf Hs) by lia.
    rewrite (proj2 (Z.eqb_neq (currentTemp s + 1) (targetTemp s))) by lia.
    reflexivity.
  - change (repeat_call (S (S n)) increaseTemp s)
      with (repeat_call (S n) increaseTemp (increaseTemp s)).
    rewrite (increaseTemp_step s Hwf Hs) by lia.
    rewrite (proj2 (Z.eqb_neq (currentTemp s + 1) (targetTemp s))) by lia.
    rewrite IH; [| | reflexivity | simpl; lia].
    + simpl currentTemp. simpl targetTemp. f_equal. lia.
    + destruct Hwf as [Hc Ht]. split; simpl; [| exact Ht].
      unfold CInt.in_int, CInt.int_min, CInt.int_max in *. lia.
Qed.

(** A struct that is not heating is left alone by any number of
    [increaseTemp] calls: a target below the current temperature is never
    reached by heating. *)
Lemma repeat_increaseTemp_not_heating (n : nat) (s : Thermostat) :
  state s <> STATE_HEATING -> repeat_call n increaseTemp s = s.
Proof.
  intros Hs. induction n as [| n IH]; [reflexivity |].
  cbn [repeat_call]. rewrite increaseTemp_skip; [exact IH |].
  intros [H _]. exact (Hs H).
Qed.

(** Counterexample to C3 as stated: for [k = 3] the target 25 is valid, but
    after [setTargetTemp(25)] and exactly 3 calls of [increaseTemp] the struct
    holds 23/25 and is still HEATING/MEDIUM, because heating starts from
    [currentTemp = 20], not from the old target 22. *)
Lemma k_calls_do_not_converge :
  16 <= 22 + 3 <= 30 /\ 22 + 3 <> 22 /\
  repeat_call (Z.to_nat 3) increaseTemp (setTargetTemp initial (22 + 3))
    = mkThermostat 23 25 STATE_HEATING FAN_MEDIUM /\
  ~ converged
      (repeat_call (Z.to_nat 3) increaseTemp (setTargetTemp initial (22 + 3))).
Proof.
  split; [lia |]. split; [lia |]. split; [reflexivity |].
  intros [H _]. discriminate H.
Qed.

(** C3 (amended). For every [k] such that [22+k] is a valid new target
    ([16 <= 22+k <= 30], [22+k != 22]) not below the initial [currentTemp]
    20, [setTargetTemp(22+k)] on the initialised struct followed by exactly
    [k+2] calls of [increaseTemp] yields state IDLE, fan speed LOW and
    [currentTemp == targetTemp == 22+k]. *)
Theorem heating_converges_from_initial (k : Z) :
  16 <= 22 + k <= 30 -> 22 + k <> 22 -> 20 <= 22 + k ->
  converged
    (repeat_call (Z.to_nat (k + 2)) increaseTemp
       (setTargetTemp initial (22 + k))) /\
  targetTemp
    (repeat_call (Z.to_nat (k + 2)) increaseTemp
       (setTargetTemp initial (22 + k))) = 22 + k.
Proof.
  intros Hr Hne Hlo.
  assert (Hne' : 22 + k <> targetTemp initial) by exact Hne.
  rewrite (setTargetTemp_accept initial (22 + k) Hr Hne').
  change (currentTemp initial) with 20.
  destruct (Z.eq_dec k (-2)) as [-> | Hk].
  - unfold converged. simpl. repeat split; reflexivity.
  - rewrite Z.gtb_ltb, (proj2 (Z.ltb_lt 20 (22 + k))) by lia.
    replace (Z.to_nat (k + 2)) with (S (Z.to_nat (k + 1))) by lia.
    rewrite heating_converges.
    + unfold converged. cbn [currentTemp targetTemp state fanSpeed].
      repeat split; reflexivity.
    + split; cbn [currentTemp targetTemp];
        unfold CInt.in_int, CInt.int_min, CInt.int_max; lia.
    + reflexivity.
    + cbn [currentTemp targetTemp]. lia.
Qed.

Lemma heating_converges_from_initial_witness :
  16 <= 22 + 3 <= 30 /\ 22 + 3 <> 22 /\ 20 <= 22 + 3 /\
  converged
    (repeat_call (Z.to_nat (3 + 2)) increaseTemp
       (setTargetTemp initial (22 + 3))) /\
  targetTemp
    (repeat_call (Z.to_nat (3 + 2)) increaseTemp
       (setTargetTemp initial (22 + 3))) = 22 + 3.
Proof.
  assert (Hr : 16 <= 22 + 3 <= 30) by lia.
  assert (Hne : 22 + 3 <> 22) by lia.
  assert (Hlo : 20 <= 22 + 3) by lia.
  split; [exact Hr |]. split; [exact Hne |]. split; [exact Hlo |].
  exact (heating_converges_from_initial 3 Hr Hne Hlo).
Defined.

(** ** Instances *)

(** Instances of C2: a step that continues (20/25), a step that reaches the
    target (24/25), and a heating struct already above its target (25/20),
    which is left alone. *)
Lemma increaseTemp_spec_witness :
  (wf (mkThermostat 20 25 STATE_HEATING FAN_HIGH) /\
   currentTemp (increaseTemp (mkThermostat 20 25 STATE_HEATING FAN_HIGH)) = 21 /\
   targetTemp (increaseTemp (mkThermostat 20 25 STATE_HEATING FAN_HIGH)) = 25 /\
   state (increaseTemp (mkThermostat 20 25 STATE_HEATING FAN_HIGH))
     = STATE_HEATING /\
   fanSpeed (increaseTemp (mkThermostat 20 25 STATE_HEATING FAN_HIGH))
     = FAN_MEDIUM) /\
  (wf (mkThermostat 24 25 STATE_HEATING FAN_MEDIUM) /\
   currentTemp (increaseTemp (mkThermostat 24 25 STATE_HEATING FAN_MEDIUM)) = 25 /\
   targetTemp (increaseTemp (mkThermostat 24 25 STATE_HEATING FAN_MEDIUM)) = 25 /\
   state (increaseTemp (mkThermostat 24 25 STATE_HEATING FAN_MEDIUM))
     = STATE_IDLE /\
   fanSpeed (increaseTemp (mkThermostat 24 25 STATE_HEATING FAN_MEDIUM))
     = FAN_LOW) /\
  (wf (mkThermostat 25 20 STATE_HEATING FAN_MEDIUM) /\
   increaseTemp (mkThermostat 25 20 STATE_HEATING FAN_MEDIUM)
     = mkThermostat 25 20 STATE_HEATING FAN_MEDIUM).
Proof.
  assert (Hwf1 : wf (mkThermostat 20 25 STATE_HEATING FAN_HIGH))
    by (unfold wf, CInt.in_int, CInt.int_min, CInt.int_max; simpl; lia).
  assert (Hwf2 : wf (mkThermostat 24 25 STATE_HEATING FAN_MEDIUM))
    by (unfold wf, CInt.in_int, CInt.int_min, CInt.int_max; simpl; lia).
  assert (Hwf3 : wf (mkThermostat 25 20 STATE_HEATING FAN_MEDIUM))
    by (unfold wf, CInt.in_int, CInt.int_min, CInt.int_max; simpl; lia).
  split; [| split].
  - split; [exact Hwf1 |].
    destruct (increaseTemp_spec _ Hwf1) as [Hstep _].
    assert (Hpre : state (mkThermostat 20 25 STATE_HEATING FAN_HIGH)
                     = STATE_HEATING /\
                   currentTemp (mkThermostat 20 25 STATE_HEATING FAN_HIGH)
                     < targetTemp (mkThermostat 20 25 STATE_HEATING FAN_HIGH))
      by (split; [reflexivity | simpl; lia]).
    destruct (Hstep Hpre) as [Hcur [Htgt [_ Hgo]]].
    split; [exact Hcur |]. split; [exact Htgt |].
    apply Hgo. simpl. discriminate.
  - split; [exact Hwf2 |].
    destruct (increaseTemp_spec _ Hwf2) as [Hstep _].
    assert (Hpre : state (mkThermostat 24 25 STATE_HEATING FAN_MEDIUM)
                     = STATE_HEATING /\
                   currentTemp (mkThermostat 24 25 STATE_HEATING FAN_MEDIUM)
                     < targetTemp (mkThermostat 24 25 STATE_HEATING FAN_MEDIUM))
      by (split; [reflexivity | simpl; lia]).
    destruct (Hstep Hpre) as [Hcur [Htgt [Hstop _]]].
    split; [exact Hcur |]. split; [exact Htgt |].
    apply Hstop. reflexivity.
  - split; [exact Hwf3 |].
    apply (proj2 (increaseTemp_spec _ Hwf3)).
    intros [_ Hlt]. simpl in Hlt. lia.
Defined.

(** Instances of C5: a step that continues (20/18), a step that reaches the
    target (19/18), and a cooling struct already below its target (18/25),
    which is left alone. *)
Lemma decreaseTemp_spec_witness :
  (wf (mkThermostat 20 18 STATE_COOLING FAN_HIGH) /\
   currentTemp (decreaseTemp (mkThermostat 20 18 STATE_COOLING FAN_HIGH)) = 19 /\
   targetTemp (decreaseTemp (mkThermostat 20 18 STATE_COOLING FAN_HIGH)) = 18 /\
   state (decreaseTemp (mkThermostat 20 18 STATE_COOLING FAN_HIGH))
     = STATE_COOLING /\
   fanSpeed (decreaseTemp (mkThermostat 20 18 STATE_COOLING FAN_HIGH))
     = FAN_MEDIUM) /\
  (wf (mkThermostat 19 18 STATE_COOLING FAN_MEDIUM) /\
   currentTemp (decreaseTemp (mkThermostat 19 18 STATE_COOLING FAN_MEDIUM)) = 18 /\
   targetTemp (decreaseTemp (mkThermostat 19 18 STATE_COOLING FAN_MEDIUM)) = 18 /\
   state (decreaseTemp (mkThermostat 19 18 STATE_COOLING FAN_MEDIUM))
     = STATE_IDLE /\
   fanSpeed (decreaseTemp (mkThermostat 19 18 STATE_COOLING FAN_MEDIUM))
     = FAN_LOW) /\
  (wf (mkThermostat 18 25 STATE_COOLING FAN_MEDIUM) /\
   decreaseTemp (mkThermostat 18 25 STATE_COOLING FAN_MEDIUM)
     = mkThermostat 18 25 STATE_COOLING FAN_MEDIUM).
Proof.
  assert (Hwf1 : wf (mkThermostat 20 18 STATE_COOLING FAN_HIGH))
    by (unfold wf, CInt.in_int, CInt.int_min, CInt.int_max; simpl; lia).
  assert (Hwf2 : wf (mkThermostat 19 18 STATE_COOLING FAN_MEDIUM))
    by (unfold wf, CInt.in_int, CInt.int_min, CInt.int_max; simpl; lia).
  assert (Hwf3 : wf (mkThermostat 18 25 STATE_COOLING FAN_MEDIUM))
    by (unfold wf, CInt.in_int, CInt.int_min, CInt.int_max; simpl; lia).
  split; [| split].
  - split; [exact Hwf1 |].
    destruct (decreaseTemp_spec _ Hwf1) as [Hstep _].
    assert (Hpre : state (mkThermostat 20 18 STATE_COOLING FAN_HIGH)
                     = STATE_COOLING /\
                   currentTemp (mkThermostat 20 18 STATE_COOLING FAN_HIGH)
                     > targetTemp (mkThermostat 20 18 STATE_COOLING FAN_HIGH))
      by (split; [reflexivity | simpl; lia]).
    destruct (Hstep Hpre) as [Hcur [Htgt [_ Hgo]]].
    split; [exact Hcur |]. split; [exact Htgt |].
    apply Hgo. simpl. discriminate.
  - split; [exact Hwf2 |].
    destruct (decreaseTemp_spec _ Hwf2) as [Hstep _].
    assert (Hpre : state (mkThermostat 19 18 STATE_COOLING FAN_MEDIUM)
                     = STATE_COOLING /\
                   currentTemp (mkThermostat 19 18 STATE_COOLING FAN_MEDIUM)
                     > targetTemp (mkThermostat 19 18 STATE_COOLING FAN_MEDIUM))
      by (split; [reflexivity | simpl; lia]).
    destruct (Hstep Hpre) as [Hcur [Htgt [Hstop _]]].
    split; [exact Hcur |]. split; [exact Htgt |].
    apply Hstop. reflexivity.
  - split; [exact Hwf3 |].
    apply (proj2 (decreaseTemp_spec _ Hwf3)).
    intros [_ Hgt]. simpl in Hgt. lia.
Defined.

Lemma noChange_spec_witness :
  noChange (mkThermostat 21 21 STATE_HEATING FAN_MEDIUM)
    = mkThermostat 21 21 STATE_IDLE FAN_LOW /\
  noChange initial = initial.
Proof.
  split.
  - exact (proj1 (noChange_spec (mkThermostat 21 21 STATE_HEATING FAN_MEDIUM))
             eq_refl).
  - apply (proj2 (noChange_spec initial)). simpl. discriminate.
Defined.

Lemma wrong_state_noop_witness :
  (state (mkThermostat 20 25 STATE_COOLING FAN_MEDIUM) <> STATE_HEATING /\
   increaseTemp (mkThermostat 20 25 STATE_COOLING FAN_MEDIUM)
     = mkThermostat 20 25 STATE_COOLING FAN_MEDIUM) /\
  (state (mkThermostat 25 20 STATE_HEATING FAN_MEDIUM) <> STATE_COOLING /\
   decreaseTemp (mkThermostat 25 20 STATE_HEATING FAN_MEDIUM)
     = mkThermostat 25 20 STATE_HEATING FAN_MEDIUM).
Proof.
  assert (Hh : state (mkThermostat 20 25 STATE_COOLING FAN_MEDIUM)
               <> STATE_HEATING) by (simpl; discriminate).
  assert (Hc : state (mkThermostat 25 20 STATE_HEATING FAN_MEDIUM)
               <> STATE_COOLING) by (simpl; discriminate).
  split.
  - split; [exact Hh | exact (proj1 (wrong_state_noop _) Hh)].
  - split; [exact Hc | exact (proj2 (wrong_state_noop _) Hc)].
Defined.

Lemma state_orders_temperatures_witness :
  state (run [CallSetTargetTemp 25; CallIncreaseTemp] initial) = STATE_HEATING /\
  currentTemp (run [CallSetTargetTemp 25; CallIncreaseTemp] initial)
    <= targetTemp (run [CallSetTargetTemp 25; CallIncreaseTemp] initial).
Proof.
  assert (H : state (run [CallSetTargetTemp 25; CallIncreaseTemp] initial)
              = STATE_HEATING) by reflexivity.
  split; [exact H |].
  exact (proj1 (state_orders_temperatures
                  [CallSetTargetTemp 25; CallIncreaseTemp]) H).
Defined.

(** ** Further properties of the operations *)

Lemma range_wf (s : Thermostat) :
  16 <= currentTemp s <= 30 -> 16 <= targetTemp s <= 30 -> wf s.
Proof. intros Hc Ht. split; apply in_int_target; assumption. Qed.

Lemma StrictInv_initial : StrictInv initial.
Proof.
  constructor; simpl; try lia; intros H; discriminate H.
Qed.

Lemma StrictInv_setTargetTemp (s : Thermostat) (t : Z) :
  StrictInv s -> StrictInv (setTargetTemp s t).
Proof.
  intros HI.
  destruct ((t >=? 16) && (t <=? 30) && negb (t =? targetTemp s)) eqn:G.
  - apply setTargetTemp_guard in G. destruct G as [Hr Hne].
    rewrite (setTargetTemp_accept s t Hr Hne).
    destruct HI as [_ Hc _ _ _].
    repeat branch; cond_prop;
      (constructor; cbn [currentTemp targetTemp state fanSpeed];
       [ exact Hr | exact Hc
       | intros H; try lia; discriminate H
       | intros H; try lia; discriminate H
       | intros H; try lia; split; reflexivity ]).
  - rewrite setTargetTemp_reject; [exact HI |].
    intros H. apply setTargetTemp_guard in H. rewrite H in G. discriminate G.
Qed.

Lemma StrictInv_increaseTemp (s : Thermostat) :
  StrictInv s -> StrictInv (increaseTemp s).
Proof.
  intros HI.
  destruct (state_eqb (state s) STATE_HEATING
            && (currentTemp s <? targetTemp s)) eqn:G.
  - apply increaseTemp_guard in G. destruct G as [Hs Hlt].
    destruct HI as [Ht Hc _ _ _].
    rewrite (increaseTemp_step s (range_wf s Hc Ht) Hs Hlt).
    branch; cond_prop;
      (constructor; cbn [currentTemp targetTemp state fanSpeed];
       [ exact Ht | lia
       | intros H; try lia; discriminate H
       | intros H; try lia; discriminate H
       | intros H; try lia; split; reflexivity ]).
  - rewrite increaseTemp_skip; [exact HI |].
    intros H. apply increaseTemp_guard in H. rewrite H in G. discriminate G.
Qed.

Lemma StrictInv_decreaseTemp (s : Thermostat) :
  StrictInv s -> StrictInv (decreaseTemp s).
Proof.
  intros HI.
  destruct (state_eqb (state s) STATE_COOLING
            && (currentTemp s >? targetTemp s)) eqn:G.
  - apply decreaseTemp_guard in G. destruct G as [Hs Hgt].
    destruct HI as [Ht Hc _ _ _].
    rewrite (decreaseTemp_step s (range_wf s Hc Ht) Hs Hgt).
    branch; cond_prop;
      (constructor; cbn [currentTemp targetTemp state fanSpeed];
       [ exact Ht | lia
       | intros H; try lia; discriminate H
       | intros H; try lia; discriminate H
       | intros H; try lia; split; reflexivity ]).
  - rewrite decreaseTemp_skip; [exact HI |].
    intros H. apply decreaseTemp_guard in H. rewrite H in G. discriminate G.
Qed.

Lemma StrictInv_noChange (s : Thermostat) :
  StrictInv s -> StrictInv (noChange s).
Proof.
  intros HI. unfold noChange. branch; [| exact HI].
  destruct HI as [Ht Hc _ _ _]. cond_prop.
  constructor; cbn [set_fanSpeed set_state currentTemp targetTemp state fanSpeed];
    [ exact Ht | exact Hc
    | intros H; discriminate H | intros H; discriminate H
    | intros _; split; reflexivity ].
Qed.

Lemma StrictInv_call (c : Call) (s : Thermostat) :
  StrictInv s -> StrictInv (call c s).
Proof.
  destruct c; simpl;
    [apply StrictInv_setTargetTemp | apply StrictInv_increaseTemp
    | apply StrictInv_decreaseTemp | apply StrictInv_noChange].
Qed.

Lemma StrictInv_run (cs : list Call) : forall s, StrictInv s -> StrictInv (run cs s).
Proof.
  induction cs as [| c cs IH]; intros s HI; simpl.
  - exact HI.
  - apply IH, StrictInv_call, HI.
Qed.

(** X1. Along every call sequence from the initialised struct both
    temperatures stay within 16..30: the target because [setTargetTemp] stores
    nothing else, the current temperature because it starts at 20 and only
    moves one degree at a time towards the target. *)
Theorem reachable_temps_in_range (cs : list Call) :
  16 <= targetTemp (run cs initial) <= 30 /\
  16 <= currentTemp (run cs initial) <= 30.
Proof.
  pose proof (StrictInv_run cs initial StrictInv_initial) as HI.
  split; [exact (sinv_target _ HI) | exact (sinv_current _ HI)].
Qed.

(** X2. Along every call sequence from the initialised struct, HEATING means
    [currentTemp < targetTemp] strictly, COOLING means
    [currentTemp > targetTemp] strictly, and equal temperatures mean state
    IDLE with fan speed LOW. *)
Theorem reachable_strict_order (cs : list Call) :
  (state (run cs initial) = STATE_HEATING ->
     currentTemp (run cs initial) < targetTemp (run cs initial)) /\
  (state (run cs initial) = STATE_COOLING ->
     currentTemp (run cs initial) > targetTemp (run cs initial)) /\
  (currentTemp (run cs initial) = targetTemp (run cs initial) ->
     state (run cs initial) = STATE_IDLE /\
     fanSpeed (run cs initial) = FAN_LOW).
Proof.
  pose proof (StrictInv_run cs initial StrictInv_initial) as HI.
  split; [exact (sinv_heating _ HI) |].
  split; [exact (sinv_cooling _ HI) | exact (sinv_equal _ HI)].
Qed.

(** X3. [noChange] changes nothing in any state reached from the initialised
    struct by calls of the four operations: whenever the temperatures are
    equal there, the struct is already IDLE/LOW. *)
Theorem noChange_noop_on_reachable (cs : list Call) :
  noChange (run cs initial) = run cs initial.
Proof.
  pose proof (StrictInv_run cs initial StrictInv_initial) as HI.
  set (r := run cs initial) in *. unfold noChange.
  branch; [| reflexivity]. cond_prop.
  destruct (sinv_equal _ HI E) as [Hs Hf].
  destruct r as [c t st f]. simpl in Hs, Hf. subst st f. reflexivity.
Qed.

(** ** Driving the struct to its target *)

Lemma repeat_call_add (n m : nat) (f : Thermostat -> Thermostat) :
  forall s, repeat_call (n + m) f s = repeat_call m f (repeat_call n f s).
Proof.
  induction n as [| n IH]; intros s; [reflexivity |].
  cbn [Nat.add repeat_call]. apply IH.
Qed.

(** A struct that is not cooling is left alone by any number of
    [decreaseTemp] calls. *)
Lemma repeat_decreaseTemp_not_cooling (n : nat) (s : Thermostat) :
  state s <> STATE_COOLING -> repeat_call n decreaseTemp s = s.
Proof.
  intros Hs. induction n as [| n IH]; [reflexivity |].
  cbn [repeat_call]. rewrite decreaseTemp_skip; [exact IH |].
  intros [H _]. exact (Hs H).
Qed.

(** A cooling struct that is [S n] degrees above its target reaches it after
    exactly [S n] calls of [decreaseTemp]. *)
Lemma cooling_converges (n : nat) : forall s,
  wf s -> state s = STATE_COOLING ->
  currentTemp s - targetTemp s = Z.of_nat (S n) ->
  repeat_call (S n) decreaseTemp s =
    mkThermostat (targetTemp s) (targetTemp s) STATE_IDLE FAN_LOW.
Proof.
  induction n as [| n IH]; intros s Hwf Hs Hd.
  - cbn [repeat_call]. rewrite (decreaseTemp_step s Hwf Hs) by lia.
    replace (currentTemp s - 1) with (targetTemp s) by lia.
    rewrite Z.eqb_refl. reflexivity.
  - change (repeat_call (S (S n)) decreaseTemp s)
      with (repeat_call (S n) decreaseTemp (decreaseTemp s)).
    rewrite (decreaseTemp_step s Hwf Hs) by lia.
    rewrite (proj2 (Z.eqb_neq (currentTemp s - 1) (targetTemp s))) by lia.
    rewrite IH; [reflexivity | | reflexivity | simpl; lia].
    destruct Hwf as [Hc Ht]. split; simpl; [| exact Ht].
    unfold CInt.in_int, CInt.int_min, CInt.int_max in *. lia.
Qed.

(** X4. A heating struct below its target is brought to the target by
    [increaseTemp] in exactly [targetTemp - currentTemp] calls, ending IDLE/LOW
    with [currentTemp == targetTemp]; any further calls leave it there. *)
Theorem heating_reaches_target (s : Thermostat) (n : nat) :
  wf s -> state s = STATE_HEATING -> currentTemp s < targetTemp s ->
  (Z.to_nat (targetTemp s - currentTemp s) <= n)%nat ->
  repeat_call n increaseTemp s =
    mkThermostat (targetTemp s) (targetTemp s) STATE_IDLE FAN_LOW.
Proof.
  intros Hwf Hs Hlt Hn.
  replace n with (S (Z.to_nat (targetTemp s - currentTemp s - 1))
                  + (n - Z.to_nat (targetTemp s - currentTemp s)))%nat by lia.
  rewrite repeat_call_add, (heating_converges _ s Hwf Hs) by lia.
  apply repeat_increaseTemp_not_heating. simpl. discriminate.
Qed.

(** X5. A cooling struct above its target is brought to the target by
    [decreaseTemp] in exactly [currentTemp - targetTemp] calls, ending IDLE/LOW
    with [currentTemp == targetTemp]; any further calls leave it there. *)
Theorem cooling_reaches_target (s : Thermostat) (n : nat) :
  wf s -> state s = STATE_COOLING -> currentTemp s > targetTemp s ->
  (Z.to_nat (currentTemp s - targetTemp s) <= n)%nat ->
  repeat_call n decreaseTemp s =
    mkThermostat (targetTemp s) (targetTemp s) STATE_IDLE FAN_LOW.
Proof.
  intros Hwf Hs Hgt Hn.
  replace n with (S (Z.to_nat (currentTemp s - targetTemp s - 1))
                  + (n - Z.to_nat (currentTemp s - targetTemp s)))%nat by lia.
  rewrite repeat_call_add, (cooling_converges _ s Hwf Hs) by lia.
  apply repeat_decreaseTemp_not_cooling. simpl. discriminate.
Qed.

(** While fewer calls than degrees have been made, the struct is still
    cooling with the fan at MEDIUM. *)
Lemma cooling_in_progress (n : nat) : forall s,
  wf s -> state s = STATE_COOLING ->
  Z.of_nat (S n) < currentTemp s - targetTemp s ->
  repeat_call (S n) decreaseTemp s =
    mkThermostat (currentTemp s - Z.of_nat (S n)) (targetTemp s)
      STATE_COOLING FAN_MEDIUM.
Proof.
  induction n as [| n IH]; intros s Hwf Hs Hd.
  - cbn [repeat_call]. rewrite (decreaseTemp_step s Hwf Hs) by lia.
    rewrite (proj2 (Z.eqb_neq (currentTemp s - 1) (targetTemp s))) by lia.
    reflexivity.
  - change (repeat_call (S (S n)) decreaseTemp s)
      with (repeat_call (S n) decreaseTemp (decreaseTemp s)).
    rewrite (decreaseTemp_step s Hwf Hs) by lia.
    rewrite (proj2 (Z.eqb_neq (currentTemp s - 1) (targetTemp s))) by lia.
    rewrite IH; [| | reflexivity | simpl; lia].
    + simpl currentTemp. simpl targetTemp. f_equal. lia.
    + destruct Hwf as [Hc Ht]. split; simpl; [| exact Ht].
      unfold CInt.in_int, CInt.int_min, CInt.int_max in *. lia.
Qed.

(** X6. After [n >= 1] calls of [increaseTemp] on a heating struct that is
    more than [n] degrees below its target, the struct has gained exactly [n]
    degrees and is still HEATING with the fan at MEDIUM. *)
Theorem heating_partial (s : Thermostat) (n : nat) :
  wf s -> state s = STATE_HEATING ->
  (0 < n)%nat -> Z.of_nat n < targetTemp s - currentTemp s ->
  repeat_call n increaseTemp s =
    mkThermostat (currentTemp s + Z.of_nat n) (targetTemp s)
      STATE_HEATING FAN_MEDIUM.
Proof.
  intros Hwf Hs Hn Hd. destruct n as [| n]; [lia |].
  exact (heating_in_progress n s Hwf Hs Hd).
Qed.

(** X7. After [n >= 1] calls of [decreaseTemp] on a cooling struct that is
    more than [n] degrees above its target, the struct has lost exactly [n]
    degrees and is still COOLING with the fan at MEDIUM. *)
Theorem cooling_partial (s : Thermostat) (n : nat) :
  wf s -> state s = STATE_COOLING ->
  (0 < n)%nat -> Z.of_nat n < currentTemp s - targetTemp s ->
  repeat_call n decreaseTemp s =
    mkThermostat (currentTemp s - Z.of_nat n) (targetTemp s)
      STATE_COOLING FAN_MEDIUM.
Proof.
  intros Hwf Hs Hn Hd. destruct n as [| n]; [lia |].
  exact (cooling_in_progress n s Hwf Hs Hd).
Qed.

(** X8. From any struct with [int] temperatures, an accepted
    [setTargetTemp(t)] followed by [|t - currentTemp|] calls of the matching
    step ([increaseTemp] when [t] is above, [decreaseTemp] when below) ends
    with both temperatures equal to [t], state IDLE and fan speed LOW. *)
Theorem setTargetTemp_then_drive (s : Thermostat) (t : Z) :
  wf s -> 16 <= t <= 30 -> t <> targetTemp s ->
  (currentTemp s <= t ->
     repeat_call (Z.to_nat (t - currentTemp s)) increaseTemp
       (setTargetTemp s t) = mkThermostat t t STATE_IDLE FAN_LOW) /\
  (t <= currentTemp s ->
     repeat_call (Z.to_nat (currentTemp s - t)) decreaseTemp
       (setTargetTemp s t) = mkThermostat t t STATE_IDLE FAN_LOW).
Proof.
  intros [Hc _] Hr Hne. pose proof (in_int_target t Hr) as Ht.
  rewrite (setTargetTemp_accept s t Hr Hne).
  destruct (Z.lt_trichotomy t (currentTemp s)) as [Hlt | [Heq | Hgt]].
  - rewrite Z.gtb_ltb, (proj2 (Z.ltb_ge (currentTemp s) t)) by lia.
    rewrite (proj2 (Z.ltb_lt t (currentTemp s))) by lia.
    split; [intros H; lia | intros _].
    replace (Z.to_nat (currentTemp s - t))
      with (S (Z.to_nat (currentTemp s - t - 1))) by lia.
    rewrite cooling_converges;
      [reflexivity | split; assumption | reflexivity
      | cbn [currentTemp targetTemp]; lia].
  - rewrite Z.gtb_ltb, (proj2 (Z.ltb_ge (currentTemp s) t)) by lia.
    rewrite (proj2 (Z.ltb_ge t (currentTemp s))) by lia.
    rewrite <- Heq, Z.sub_diag. split; intros _; reflexivity.
  - rewrite Z.gtb_ltb, (proj2 (Z.ltb_lt (currentTemp s) t)) by lia.
    split; [intros _ | intros H; lia].
    replace (Z.to_nat (t - currentTemp s))
      with (S (Z.to_nat (t - currentTemp s - 1))) by lia.
    rewrite heating_converges;
      [reflexivity | split; assumption | reflexivity
      | cbn [currentTemp targetTemp]; lia].
Qed.

(** ** What the operations leave alone *)

(** X9. [setTargetTemp] is idempotent: repeating a call with the same
    argument changes nothing more, whether the first call was accepted (the
    target is then already [t]) or rejected. *)
Theorem setTargetTemp_idempotent (s : Thermostat) (t : Z) :
  setTargetTemp (setTargetTemp s t) t = setTargetTemp s t.
Proof.
  destruct ((t >=? 16) && (t <=? 30) && negb (t =? targetTemp s)) eqn:G.
  - apply setTargetTemp_guard in G. destruct G as [Hr Hne].
    apply setTargetTemp_reject. intros [_ H]. apply H.
    rewrite (setTargetTemp_accept s t Hr Hne). repeat branch; reflexivity.
  - assert (E : setTargetTemp s t = s).
    { apply setTargetTemp_reject. intros H.
      apply setTargetTemp_guard in H. rewrite H in G. discriminate G. }
    rewrite !E. reflexivity.
Qed.

(** X10. [setTargetTemp] and [noChange] never write [currentTemp], whatever
    their input. *)
Theorem currentTemp_frame :
  (forall s t, currentTemp (setTargetTemp s t) = currentTemp s) /\
  (forall s, currentTemp (noChange s) = currentTemp s).
Proof.
  split.
  - intros s t. unfold setTargetTemp. repeat branch; reflexivity.
  - intros s. unfold noChange. branch; reflexivity.
Qed.

(** X11. A struct that is IDLE with fan speed LOW, such as the one
    [initThermostat] leaves (20 against a target of 22), is changed by no
    sequence of [increaseTemp], [decreaseTemp] and [noChange] calls, whether or
    not its temperatures are equal: only [setTargetTemp] starts it moving. *)
Theorem idle_is_stable (s : Thermostat) (cs : list Call) :
  state s = STATE_IDLE -> fanSpeed s = FAN_LOW ->
  forallb (fun c => negb (is_setTargetTemp c)) cs = true ->
  run cs s = s.
Proof.
  intros Hs Hf. induction cs as [| c cs IH]; intros Hcs.
  - reflexivity.
  - cbn [forallb] in Hcs. apply andb_true_iff in Hcs. destruct Hcs as [Hc Hcs].
    cbn [run]. assert (E : call c s = s).
    { destruct c; cbn [call is_setTargetTemp negb] in *.
      - discriminate Hc.
      - apply increaseTemp_skip. intros [H _]. rewrite Hs in H. discriminate H.
      - apply decreaseTemp_skip. intros [H _]. rewrite Hs in H. discriminate H.
      - unfold noChange. branch; [| reflexivity].
        destruct s as [c t st f]. simpl in Hs, Hf. subst st f. reflexivity. }
    rewrite E. exact (IH Hcs).
Qed.

(** X12. [increaseTemp], [decreaseTemp] and [noChange] never set the fan to
    HIGH: a result with fan speed HIGH means the call changed nothing, so HIGH
    is only ever stored by [setTargetTemp]. *)
Theorem high_only_from_setTargetTemp (c : Call) (s : Thermostat) :
  is_setTargetTemp c = false ->
  fanSpeed (call c s) = FAN_HIGH -> call c s = s.
Proof.
  intros Hc. destruct c; cbn [is_setTargetTemp call] in *;
    [discriminate Hc | unfold increaseTemp | unfold decreaseTemp | unfold noChange];
    repeat branch; cbn [set_fanSpeed fanSpeed]; intros H;
    try reflexivity; discriminate H.
Qed.

(** X13. On a struct with [int] temperatures, a call of [increaseTemp],
    [decreaseTemp] or [noChange] never moves [currentTemp] away from
    [targetTemp]: the distance between them does not grow. *)
Theorem distance_never_grows (c : Call) (s : Thermostat) :
  wf s -> is_setTargetTemp c = false ->
  distance (call c s) <= distance s.
Proof.
  intros Hwf Hc. destruct c; cbn [is_setTargetTemp call] in *.
  - discriminate Hc.
  - destruct (state_eqb (state s) STATE_HEATING
              && (currentTemp s <? targetTemp s)) eqn:G.
    + apply increaseTemp_guard in G. destruct G as [Hs Hlt].
      rewrite (increaseTemp_step s Hwf Hs Hlt). unfold distance.
      branch; cbn [currentTemp targetTemp]; lia.
    + rewrite increaseTemp_skip; [lia |].
      intros H. apply increaseTemp_guard in H. rewrite H in G. discriminate G.
  - destruct (state_eqb (state s) STATE_COOLING
              && (currentTemp s >? targetTemp s)) eqn:G.
    + apply decreaseTemp_guard in G. destruct G as [Hs Hgt].
      rewrite (decreaseTemp_step s Hwf Hs Hgt). unfold distance.
      branch; cbn [currentTemp targetTemp]; lia.
    + rewrite decreaseTemp_skip; [lia |].
      intros H. apply decreaseTemp_guard in H. rewrite H in G. discriminate G.
  - unfold noChange, distance. branch; cbn [set_fanSpeed set_state currentTemp targetTemp]; lia.
Qed.

(** X14. Calls of [setTargetTemp] with an argument outside 16..30 can be
    dropped from any call sequence without changing its result. *)
Theorem out_of_range_calls_dropped (cs : list Call) : forall s,
  run (filter passes_range_test cs) s = run cs s.
Proof.
  induction cs as [| c cs IH]; intros s; [reflexivity |].
  cbn [filter]. destruct (passes_range_test c) eqn:P; cbn [run].
  - apply IH.
  - destruct c; cbn [passes_range_test] in P; try discriminate P.
    cbn [call]. rewrite (setTargetTemp_reject s newTarget); [apply IH |].
    intros [[H1 H2] _].
    rewrite Z.geb_leb, (proj2 (Z.leb_le 16 newTarget) H1),
      (proj2 (Z.leb_le newTarget 30) H2) in P.
    discriminate P.
Qed.

(** ** Instances of the further properties *)

Lemma heating_reaches_target_witness :
  wf (mkThermostat 20 25 STATE_HEATING FAN_HIGH) /\
  (Z.to_nat (25 - 20) <= 7)%nat /\
  repeat_call 7 increaseTemp (mkThermostat 20 25 STATE_HEATING FAN_HIGH)
    = mkThermostat 25 25 STATE_IDLE FAN_LOW.
Proof.
  assert (Hwf : wf (mkThermostat 20 25 STATE_HEATING FAN_HIGH))
    by (unfold wf, CInt.in_int, CInt.int_min, CInt.int_max; simpl; lia).
  assert (Hn : (Z.to_nat (25 - 20) <= 7)%nat) by (simpl; lia).
  split; [exact Hwf |]. split; [exact Hn |].
  refine (heating_reaches_target (mkThermostat 20 25 STATE_HEATING FAN_HIGH) 7
            Hwf eq_refl _ Hn).
  simpl. lia.
Defined.

Lemma cooling_reaches_target_witness :
  wf (mkThermostat 20 17 STATE_COOLING FAN_HIGH) /\
  (Z.to_nat (20 - 17) <= 3)%nat /\
  repeat_call 3 decreaseTemp (mkThermostat 20 17 STATE_COOLING FAN_HIGH)
    = mkThermostat 17 17 STATE_IDLE FAN_LOW.
Proof.
  assert (Hwf : wf (mkThermostat 20 17 STATE_COOLING FAN_HIGH))
    by (unfold wf, CInt.in_int, CInt.int_min, CInt.int_max; simpl; lia).
  assert (Hn : (Z.to_nat (20 - 17) <= 3)%nat) by (simpl; lia).
  split; [exact Hwf |]. split; [exact Hn |].
  refine (cooling_reaches_target (mkThermostat 20 17 STATE_COOLING FAN_HIGH) 3
            Hwf eq_refl _ Hn).
  simpl. lia.
Defined.

Lemma heating_partial_witness :
  wf (mkThermostat 20 25 STATE_HEATING FAN_HIGH) /\
  repeat_call 3 increaseTemp (mkThermostat 20 25 STATE_HEATING FAN_HIGH)
    = mkThermostat (20 + Z.of_nat 3) 25 STATE_HEATING FAN_MEDIUM.
Proof.
  assert (Hwf : wf (mkThermostat 20 25 STATE_HEATING FAN_HIGH))
    by (unfold wf, CInt.in_int, CInt.int_min, CInt.int_max; simpl; lia).
  split; [exact Hwf |].
  refine (heating_partial (mkThermostat 20 25 STATE_HEATING FAN_HIGH) 3
            Hwf eq_refl _ _); simpl; lia.
Defined.

Lemma cooling_partial_witness :
  wf (mkThermostat 20 16 STATE_COOLING FAN_HIGH) /\
  repeat_call 2 decreaseTemp (mkThermostat 20 16 STATE_COOLING FAN_HIGH)
    = mkThermostat (20 - Z.of_nat 2) 16 STATE_COOLING FAN_MEDIUM.
Proof.
  assert (Hwf : wf (mkThermostat 20 16 STATE_COOLING FAN_HIGH))
    by (unfold wf, CInt.in_int, CInt.int_min, CInt.int_max; simpl; lia).
  split; [exact Hwf |].
  refine (cooling_partial (mkThermostat 20 16 STATE_COOLING FAN_HIGH) 2
            Hwf eq_refl _ _); simpl; lia.
Defined.

Lemma setTargetTemp_then_drive_witness :
  wf (mkThermostat 24 19 STATE_COOLING FAN_MEDIUM) /\
  16 <= 28 <= 30 /\
  28 <> targetTemp (mkThermostat 24 19 STATE_COOLING FAN_MEDIUM) /\
  repeat_call (Z.to_nat (28 - 24)) increaseTemp
    (setTargetTemp (mkThermostat 24 19 STATE_COOLING FAN_MEDIUM) 28)
    = mkThermostat 28 28 STATE_IDLE FAN_LOW.
Proof.
  assert (Hwf : wf (mkThermostat 24 19 STATE_COOLING FAN_MEDIUM))
    by (unfold wf, CInt.in_int, CInt.int_min, CInt.int_max; simpl; lia).
  assert (Hr : 16 <= 28 <= 30) by lia.
  assert (Hne : 28 <> targetTemp (mkThermostat 24 19 STATE_COOLING FAN_MEDIUM))
    by (simpl; lia).
  split; [exact Hwf |]. split; [exact Hr |]. split; [exact Hne |].
  apply (proj1 (setTargetTemp_then_drive _ 28 Hwf Hr Hne)). simpl. lia.
Defined.

Lemma idle_is_stable_witness :
  state initial = STATE_IDLE /\ fanSpeed initial = FAN_LOW /\
  run [CallIncreaseTemp; CallNoChange; CallDecreaseTemp] initial = initial.
Proof.
  split; [reflexivity |]. split; [reflexivity |].
  exact (idle_is_stable initial
           [CallIncreaseTemp; CallNoChange; CallDecreaseTemp]
           eq_refl eq_refl eq_refl).
Defined.

Lemma high_only_from_setTargetTemp_witness :
  is_setTargetTemp CallIncreaseTemp = false /\
  fanSpeed (call CallIncreaseTemp (mkThermostat 20 18 STATE_COOLING FAN_HIGH))
    = FAN_HIGH /\
  call CallIncreaseTemp (mkThermostat 20 18 STATE_COOLING FAN_HIGH)
    = mkThermostat 20 18 STATE_COOLING FAN_HIGH.
Proof.
  split; [reflexivity |]. split; [reflexivity |].
  exact (high_only_from_setTargetTemp CallIncreaseTemp
           (mkThermostat 20 18 STATE_COOLING FAN_HIGH) eq_refl eq_refl).
Defined.

Lemma distance_never_grows_witness :
  wf (mkThermostat 20 25 STATE_HEATING FAN_HIGH) /\
  is_setTargetTemp CallIncreaseTemp = false /\
  distance (call CallIncreaseTemp (mkThermostat 20 25 STATE_HEATING FAN_HIGH))
    <= distance (mkThermostat 20 25 STATE_HEATING FAN_HIGH).
Proof.
  assert (Hwf : wf (mkThermostat 20 25 STATE_HEATING FAN_HIGH))
    by (unfold wf, CInt.in_int, CInt.int_min, CInt.int_max; simpl; lia).
  split; [exact Hwf |]. split; [reflexivity |].
  exact (distance_never_grows CallIncreaseTemp _ Hwf eq_refl).
Defined.
